(** * weather-service: the classifier, the request handler and the upstream client

    A shallow embedding of [main.go].  Temperatures are IEEE-754 binary32
    values ([spec_float] with precision 24 and exponent bound 128); the
    handler and the upstream client are written in a small state monad
    whose results may be a Go panic. *)

From Stdlib Require Import ZArith QArith Bool List String Ascii Lia Lqa.
From Stdlib Require Import Floats.SpecFloat.
From stdpp Require Import gmap strings.
Import ListNotations.

Close Scope Q_scope.
Local Open Scope string_scope.
Local Open Scope Z_scope.

(** ** 32-bit floats *)

Definition prec32 : Z := 24.
Definition emax32 : Z := 128.

(** Go's [float32]: a [spec_float]; the well-formed ones satisfy [is_float32]. *)
Definition float32 : Type := spec_float.
Definition float64 : Type := spec_float.

Definition is_float32 (x : float32) : bool := valid_binary prec32 emax32 x.

(** An untyped integer constant converted to [float32]. *)
Definition f32_const (n : Z) : float32 := binary_normalize prec32 emax32 n 0 false.

(** [x >= a] and [x < b] on floats: false as soon as one side is NaN. *)
Definition f32_ge (x a : float32) : bool :=
  match SFcompare x a with
  | Some (Gt | Eq) => true
  | _ => false
  end.

Definition f32_lt (x b : float32) : bool :=
  match SFcompare x b with
  | Some Lt => true
  | _ => false
  end.

(** ** The classifier (main.go, lines 99-122) *)

Definition bw (x a b : float32) : bool := f32_ge x a && f32_lt x b.

Definition getTemperature (x : float32) : string :=
  if bw x (f32_const (-4)) (f32_const 0) then "freezing"
  else if bw x (f32_const 0) (f32_const 4) then "very cold"
  else if bw x (f32_const 4) (f32_const 8) then "cold"
  else if bw x (f32_const 8) (f32_const 12) then "not so cold"
  else if bw x (f32_const 12) (f32_const 16) then "mild"
  else if bw x (f32_const 16) (f32_const 20) then "less mild"
  else if bw x (f32_const 20) (f32_const 24) then "getting hot"
  else "HOT".

(** ** The value of a float, and the classifier's table *)

(** The rational a finite float denotes, [(-1)^s * m * 2^e]; infinities and
    NaN denote none. *)
Definition F2Q (x : float32) : option Q :=
  match x with
  | S754_zero _ => Some (inject_Z 0)
  | S754_finite s m (Zneg p) => Some (Qmake (cond_Zopp s (Zpos m)) (2 ^ p)%positive)
  | S754_finite s m e => Some (inject_Z (cond_Zopp s (Zpos m) * 2 ^ e))
  | S754_infinity _ | S754_nan => None
  end.

(** The same value counted in units of [2^-149], the smallest positive
    binary32 number: an integer for every well-formed finite float. *)
Definition ulps (x : float32) : Z :=
  match x with
  | S754_finite s m e => cond_Zopp s (Zpos m) * 2 ^ (e + 149)
  | _ => 0
  end.

Definition is_finite (x : float32) : bool :=
  match x with
  | S754_zero _ | S754_finite _ _ _ => true
  | _ => false
  end.

(** The table of the specification: interval bounds in degrees Celsius and
    the label of each row, in the order the rows are tried. *)
Definition temperature_table : list (Z * Z * string) :=
  [ (-4, 0, "freezing"); (0, 4, "very cold"); (4, 8, "cold");
    (8, 12, "not so cold"); (12, 16, "mild"); (16, 20, "less mild");
    (20, 24, "getting hot") ].

(** [q] lies in the half-open interval [[a, b)]. *)
Definition in_interval (q : Q) (a b : Z) : bool :=
  Qle_bool (inject_Z a) q && negb (Qle_bool (inject_Z b) q).

(** The classifier as the specification words it: the label of the first row
    whose interval holds the temperature, and "HOT" when no row does. *)
Definition classify_spec (t : float32) : string :=
  match F2Q t with
  | Some q =>
      match find (fun row => in_interval q (fst (fst row)) (snd (fst row))) temperature_table with
      | Some row => snd row
      | None => "HOT"
      end
  | None => "HOT"
  end.

(** The labels the classifier can return. *)
Definition labels : list string :=
  [ "freezing"; "very cold"; "cold"; "not so cold"; "mild"; "less mild";
    "getting hot"; "HOT" ].

(** Float literals used by the boundary checks. *)
Definition f32_23_999 : float32 := S754_finite false 12582388 (-19).
Definition f32_neg_4_001 : float32 := S754_finite true 8390705 (-21).
Definition f32_18_5 : float32 := S754_finite false 9699328 (-19).

(** An integer constant that binary32 represents exactly. *)
Definition exact_const (n : Z) : bool :=
  is_float32 (f32_const n) && is_finite (f32_const n)
  && (ulps (f32_const n) =? n * 2 ^ 149).

(** The conversion [float32(x)] of a [float64]: rounding to nearest even. *)
Definition float32_of_float64 (x : float64) : float32 :=
  match x with
  | S754_finite s m e => binary_round prec32 emax32 s m e
  | _ => x
  end.

(** ** Data of the service (main.go, lines 14-41) *)

(** Go's [error] values are modelled by their message. *)
Definition error : Type := string.

(** A call that returns [(value, err)]: the value when [err == nil]. *)
Inductive go_result (A : Type) : Type :=
| Ok (a : A)
| Err (err : error).
Arguments Ok {A} a.
Arguments Err {A} err.

Module owmErrorMessage.
Record t : Type := mk { Code : string; Message : string }.
End owmErrorMessage.

(** One entry of the [Weather] slice. *)
Module weatherEntry.
Record t : Type := mk { Main : string }.
End weatherEntry.

Module mainBlock.
Record t : Type := mk { Temperature : float32 }.
End mainBlock.

Module owmSuccessMessage.
Record t : Type := mk { Weather : list weatherEntry.t; Main : mainBlock.t }.
(** The zero value [owmSuccessMessage{}]. *)
Definition zero : t := mk [] (mainBlock.mk (S754_zero false)).
End owmSuccessMessage.

Module httpError.
Record t : Type := mk { Status : string; Message : string }.
Definition Error (err : t) : string := Message err.
End httpError.

Module response.
Record t : Type := mk { Status : string; Condition : string; TemperatureFeel : string }.
End response.

(** ** The world the handler runs in *)

(** What reading a response body to its end gives. *)
Inductive read_outcome : Type :=
| ReadOk (bytes : string)
| ReadErr (cause : error).

(** An upstream [*http.Response]. *)
Record Response : Type := mkResponse { StatusCode : Z; Body : read_outcome }.

(** The [http.ResponseWriter] of the inbound request: [Write] sends the
    header with status 200 when no header was sent before. *)
Record ResponseWriter : Type :=
  mkWriter { wroteHeader : bool; status : Z; written : string }.

Definition StatusOK : Z := 200.

Definition fresh_writer : ResponseWriter := mkWriter false 0 EmptyString.

Record World : Type :=
  mkWorld { writer : ResponseWriter;   (* the reply under construction *)
            logged : list string;      (* lines given to log.Println *)
            open_bodies : nat }.       (* upstream bodies acquired and not closed *)

Definition fresh_world : World := mkWorld fresh_writer [] 0%nat.

(** The functions of Go's library the service calls. *)
Record Runtime : Type :=
  mkRuntime {
    ParseFloat : string -> Z -> go_result float64;                      (* strconv *)
    format_f : float32 -> string;                                       (* the verb %f *)
    Get : string -> go_result Response;                                 (* net/http *)
    Unmarshal_owmErrorMessage : string -> go_result owmErrorMessage.t;  (* encoding/json *)
    Unmarshal_owmSuccessMessage : string -> go_result owmSuccessMessage.t;
    Marshal_httpError : httpError.t -> go_result string;
    Marshal_response : response.t -> go_result string }.

(** ** A state monad with panics *)

Inductive result (A : Type) : Type :=
| Ret (a : A)
| Panic (v : string).
Arguments Ret {A} a.
Arguments Panic {A} v.

Definition M (A : Type) : Type := World -> result A * World.

Definition ret {A : Type} (a : A) : M A := fun w => (Ret a, w).

Definition bind {A B : Type} (c : M A) (k : A -> M B) : M B :=
  fun w =>
    match c w with
    | (Ret a, w') => k a w'
    | (Panic v, w') => (Panic v, w')
    end.

Definition panic {A : Type} (v : string) : M A := fun w => (Panic v, w).

Notation "'do' x <- c ; k" := (bind c (fun x => k))
  (at level 10, x name, c at level 100, k at level 200).
Notation "'run' c ; k" := (bind c (fun _ => k))
  (at level 10, c at level 100, k at level 200).

(** [defer d] before the rest of a function body: [d] runs when the body
    returns, and also when it panics. *)
Definition defer {A : Type} (d : M unit) (rest : M A) : M A :=
  fun w =>
    let (r, w1) := rest w in
    match d w1 with
    | (Ret _, w2) => (r, w2)
    | (Panic v, w2) => (Panic v, w2)
    end.

(** [s[0]]. *)
Definition index0 {A : Type} (s : list A) : M A :=
  match s with
  | x :: _ => ret x
  | [] => panic "runtime error: index out of range [0] with length 0"
  end.

Definition write_bytes (p : string) (rw : ResponseWriter) : ResponseWriter :=
  if wroteHeader rw then mkWriter true (status rw) (written rw ++ p)
  else mkWriter true StatusOK (written rw ++ p).

(** [w.Write(p)] *)
Definition Write (p : string) : M unit :=
  fun w => (Ret tt, mkWorld (write_bytes p (writer w)) (logged w) (open_bodies w)).

(** [log.Println(line)] *)
Definition Println (line : string) : M unit :=
  fun w => (Ret tt, mkWorld (writer w) (logged w ++ [line]) (open_bodies w)).

(** [http.Get(url)]: a response comes with its body open. *)
Definition http_Get (rt : Runtime) (url : string) : M (go_result Response) :=
  fun w =>
    match Get rt url with
    | Ok resp => (Ret (Ok resp), mkWorld (writer w) (logged w) (S (open_bodies w)))
    | Err err => (Ret (Err err), w)
    end.

(** [io.ReadAll(resp.Body)] *)
Definition ReadAll (resp : Response) : M (go_result string) :=
  ret (match Body resp with
       | ReadOk bytes => Ok bytes
       | ReadErr cause => Err cause
       end).

(** [resp.Body.Close()] *)
Definition Body_Close (resp : Response) : M unit :=
  fun w => (Ret tt, mkWorld (writer w) (logged w) (Nat.pred (open_bodies w))).

(** An inbound request: [URL.Query()] maps each key of the query string to
    its values. *)
Record Request : Type := mkRequest { Query : gmap string (list string) }.

(** ** The service (main.go, lines 43-174) *)

Section Service.
Variable rt : Runtime.
(** The value of OWM_KEY that [main] read at start-up. *)
Variable KEY : string.

(** [e], lines 166-174. *)
Definition e (msg : string) : M unit :=
  match Marshal_httpError rt (httpError.mk "error" msg) with
  | Err err => panic err
  | Ok hError =>
      run Write hError;
      Println msg
  end.

(** The URL that [fmt.Sprintf] builds at lines 125-129. *)
Definition weatherURL (longitude latitude : float32) (key : string) : string :=
  "https://api.openweathermap.org/data/2.5/weather?units=metric&lat="
  ++ format_f rt latitude ++ "&lon=" ++ format_f rt longitude
  ++ "&appid=" ++ key.

(** [getWeather], lines 124-164. *)
Definition getWeather (longitude latitude : float32) (key : string)
  : M (owmSuccessMessage.t * option error) :=
  let URL := weatherURL longitude latitude key in
  do got <- http_Get rt URL;
  match got with
  | Err err =>
      run Println ("get weather: " ++ err);
      ret (owmSuccessMessage.zero, Some "internal server error")
  | Ok resp =>
      do read <- ReadAll resp;
      match read with
      | Err err =>
          run Println ("read request body: " ++ err);
          ret (owmSuccessMessage.zero, Some "internal server error")
      | Ok body =>
          defer (Body_Close resp)
            (if negb (StatusCode resp =? StatusOK) then
               match Unmarshal_owmErrorMessage rt body with
               | Err err =>
                   run Println ("unmarshall error request body: " ++ err);
                   ret (owmSuccessMessage.zero, Some "internal server error")
               | Ok oError =>
                   run Println ("non-200 response: " ++ owmErrorMessage.Code oError
                                ++ " " ++ owmErrorMessage.Message oError);
                   ret (owmSuccessMessage.zero, Some (owmErrorMessage.Message oError))
               end
             else
               match Unmarshal_owmSuccessMessage rt body with
               | Err err =>
                   run Println ("unmarshall request body: " ++ err);
                   ret (owmSuccessMessage.zero, Some "internal server error")
               | Ok data => ret (data, None)
               end)
      end
  end.

(** The handler from the call of [getWeather] on, lines 78-93. *)
Definition handler_tail (latitude longitude : float64) : M unit :=
  do got <- getWeather (float32_of_float64 longitude) (float32_of_float64 latitude) KEY;
  match snd got with
  | Some err => e err
  | None =>
      let data := fst got in
      do first <- index0 (owmSuccessMessage.Weather data);
      match Marshal_response rt
              (response.mk EmptyString (weatherEntry.Main first)
                 (getTemperature (mainBlock.Temperature (owmSuccessMessage.Main data)))) with
      | Err err => e err
      | Ok respData => Write respData
      end
  end.

(** The handler of [GET /], lines 51-94. *)
Definition handler (r : Request) : M unit :=
  let query := Query r in
  match query !! "lat" with
  | None => e "missing query parameter: lat"
  | Some lat =>
      match query !! "lon" with
      | None => e "missing query parameter: lon"
      | Some lon =>
          do lat0 <- index0 lat;
          match ParseFloat rt lat0 32 with
          | Err _ => e "invalid value: lat"
          | Ok latitude =>
              do lon0 <- index0 lon;
              match ParseFloat rt lon0 32 with
              | Err _ => e "invalid value: lon"
              | Ok longitude => handler_tail latitude longitude
              end
          end
      end
  end.
End Service.

(** The success response the handler builds from a payload (lines 84-87). *)
Definition response_of (first : weatherEntry.t) (data : owmSuccessMessage.t) : response.t :=
  response.mk EmptyString (weatherEntry.Main first)
    (getTemperature (mainBlock.Temperature (owmSuccessMessage.Main data))).

(** The bytes [p] are what [json.Marshal] gave for an error reply or for the
    success reply of some payload. *)
Definition marshalled_reply (rt : Runtime) (p : string) : Prop :=
  (exists msg, Marshal_httpError rt (httpError.mk "error" msg) = Ok p)
  \/ (exists first data, Marshal_response rt (response_of first data) = Ok p).

(** ** What [json.Marshal] writes for the two outbound structs *)

Definition dq : string := String "034"%char EmptyString.

(** One member of a JSON object; [quote] is the encoder of string values. *)
Definition member (quote : string -> string) (key value : string) : string :=
  dq ++ key ++ dq ++ ":" ++ quote value.

(** [httpError], with the keys of its struct tags (lines 28-31). *)
Definition encode_httpError (quote : string -> string) (h : httpError.t) : string :=
  "{" ++ member quote "status" (httpError.Status h)
  ++ "," ++ member quote "message" (httpError.Message h) ++ "}".

(** [response], with the keys of its struct tags (lines 37-41). *)
Definition encode_response (quote : string -> string) (p : response.t) : string :=
  "{" ++ member quote "status" (response.Status p)
  ++ "," ++ member quote "condition" (response.Condition p)
  ++ "," ++ member quote "temperature_feel" (response.TemperatureFeel p) ++ "}".

(** A runtime whose [json.Marshal] does what encoding/json documents for a
    struct of string fields: it never fails and writes the fields in order. *)
Definition go_json (quote : string -> string) (rt : Runtime) : Prop :=
  (forall h, Marshal_httpError rt h = Ok (encode_httpError quote h))
  /\ (forall p, Marshal_response rt p = Ok (encode_response quote p)).

(** The JSON literal of a string in which nothing needs escaping. *)
Definition plain_quote (s : string) : string := dq ++ s ++ dq.

(** ** The failures of a request, as the specification lists them *)

Inductive request_fails (rt : Runtime) (KEY : string) (r : Request) (w : World)
  : string -> Prop :=
| missing_lat :
    Query r !! "lat" = None ->
    request_fails rt KEY r w "missing query parameter: lat"
| missing_lon lat :
    Query r !! "lat" = Some lat -> Query r !! "lon" = None ->
    request_fails rt KEY r w "missing query parameter: lon"
| invalid_lat lat0 lats lon err :
    Query r !! "lat" = Some (lat0 :: lats) -> Query r !! "lon" = Some lon ->
    ParseFloat rt lat0 32 = Err err ->
    request_fails rt KEY r w "invalid value: lat"
| invalid_lon lat0 lats lon0 lons latitude err :
    Query r !! "lat" = Some (lat0 :: lats) -> Query r !! "lon" = Some (lon0 :: lons) ->
    ParseFloat rt lat0 32 = Ok latitude -> ParseFloat rt lon0 32 = Err err ->
    request_fails rt KEY r w "invalid value: lon"
| upstream_failure lat0 lats lon0 lons latitude longitude data msg w1 :
    Query r !! "lat" = Some (lat0 :: lats) -> Query r !! "lon" = Some (lon0 :: lons) ->
    ParseFloat rt lat0 32 = Ok latitude -> ParseFloat rt lon0 32 = Ok longitude ->
    getWeather rt (float32_of_float64 longitude) (float32_of_float64 latitude) KEY w
    = (Ret (data, Some msg), w1) ->
    request_fails rt KEY r w msg.

(** The range of the classifier has exactly [n] strings. *)
Definition range_has (n : nat) : Prop :=
  exists l : list string,
    NoDup l /\ length l = n
    /\ forall s, In s l <-> exists t, is_float32 t = true /\ getTemperature t = s.

(** ** A concrete runtime, for running the service on examples *)

Definition f64_51_5 : float64 := S754_finite false 7247980650299392 (-47).
Definition f64_5 : float64 := S754_finite false 5629499534213120 (-50).

(** A [ParseFloat] that knows two inputs and rejects the others. *)
Definition test_ParseFloat (s : string) (bitSize : Z) : go_result float64 :=
  if String.eqb s "51.5" then Ok f64_51_5
  else if String.eqb s "5" then Ok f64_5
  else Err ("strconv.ParseFloat: parsing " ++ s ++ ": invalid syntax").

(** The runtime is fixed by what the upstream answers, by what the two
    decoders make of a body, and by the encoder of the success response. *)
Definition test_runtime (upstream : go_result Response)
    (decoded_error : go_result owmErrorMessage.t)
    (decoded : go_result owmSuccessMessage.t)
    (marshal_response : response.t -> go_result string) : Runtime :=
  mkRuntime test_ParseFloat (fun _ => "0.000000") (fun _ => upstream)
    (fun _ => decoded_error) (fun _ => decoded)
    (fun h => Ok (encode_httpError plain_quote h)) marshal_response.

Definition clear_18_5 : owmSuccessMessage.t :=
  owmSuccessMessage.mk [weatherEntry.mk "Clear"] (mainBlock.mk f32_18_5).

Definition city_not_found : owmErrorMessage.t :=
  owmErrorMessage.mk "404" "city not found".

Definition request_of (kvs : list (string * list string)) : Request :=
  mkRequest (list_to_map kvs).

Definition good_request : Request := request_of [("lat", ["51.5"]); ("lon", ["5"])].

(** The upstream answers 200 with a body. *)
Definition answers_200 : go_result Response := Ok (mkResponse StatusOK (ReadOk "body")).

Definition go_marshal_response (p : response.t) : go_result string :=
  Ok (encode_response plain_quote p).

(** Upstream answers 200 and the body decodes to "Clear" at 18.5 degrees. *)
Definition clear_runtime : Runtime :=
  test_runtime answers_200 (Err "unused") (Ok clear_18_5) go_marshal_response.

(** Upstream answers 200 and the body is the JSON object without members:
    it decodes to the zero payload, whose [Weather] is empty. *)
Definition empty_runtime : Runtime :=
  test_runtime answers_200 (Err "unused") (Ok owmSuccessMessage.zero) go_marshal_response.

(** Upstream answers 404 with the provider's error object. *)
Definition not_found_runtime : Runtime :=
  test_runtime (Ok (mkResponse 404 (ReadOk "body"))) (Ok city_not_found)
    (Err "unused") go_marshal_response.

(** The connection breaks while the body is read. *)
Definition broken_body_runtime : Runtime :=
  test_runtime (Ok (mkResponse StatusOK (ReadErr "unexpected EOF"))) (Err "unused")
    (Err "unused") go_marshal_response.

(** ** The tests of the switch, the order of the labels *)



Fixpoint index_of (s : string) (l : list string) : nat :=
  match l with
  | [] => 0%nat
  | x :: l' => if String.eqb s x then 0%nat else S (index_of s l')
  end.

(** The place of a label in [labels]: 0 for "freezing", 7 for "HOT". *)
Definition label_rank (s : string) : nat := index_of s labels.

(** ** The values of the query that the handler reads *)

(** The first value of a key of the query, when the key is there:
    [None] without the key, [Some None] for a key without values. *)
Definition first_value (r : Request) (key : string) : option (option string) :=
  match Query r !! key with
  | None => None
  | Some values => Some (List.hd_error values)
  end.

(** * Properties *)

(** ** Comparison of 32-bit floats *)

Lemma digits2_pos_bounds (m : positive) :
  2 ^ (Zpos (digits2_pos m) - 1) <= Zpos m < 2 ^ Zpos (digits2_pos m).
Proof.
  induction m as [m IH | m IH |]; cbn [digits2_pos].
  - rewrite Pos2Z.inj_succ.
    replace (Z.succ (Zpos (digits2_pos m)) - 1) with (Z.succ (Zpos (digits2_pos m) - 1)) by lia.
    rewrite !Z.pow_succ_r by lia. lia.
  - rewrite Pos2Z.inj_succ.
    replace (Z.succ (Zpos (digits2_pos m)) - 1) with (Z.succ (Zpos (digits2_pos m) - 1)) by lia.
    rewrite !Z.pow_succ_r by lia. lia.
  - cbn. lia.
Qed.

Lemma bounded_inv (m : positive) (e : Z) :
  bounded prec32 emax32 m e = true ->
  -149 <= e <= 104 /\ Zpos m < 2 ^ 24 /\ (e = -149 \/ 2 ^ 23 <= Zpos m).
Proof.
  unfold bounded, canonical_mantissa, fexp, emin, prec32, emax32.
  intros H. apply andb_true_iff in H as [Hc He].
  apply Z.eqb_eq in Hc. apply Z.leb_le in He.
  pose proof (digits2_pos_bounds m) as [Hlo Hhi].
  set (d := Zpos (digits2_pos m)) in *.
  assert (Hd : d <= 24) by lia.
  split; [lia |]. split.
  - eapply Z.lt_le_trans; [exact Hhi |]. apply Z.pow_le_mono_r; lia.
  - destruct (Z.eq_dec e (-149)) as [-> | Hne]; [now left | right].
    assert (d = 24) by lia. subst d. rewrite H in Hlo. exact Hlo.
Qed.

Lemma ulps_exp_lt (m1 m2 : positive) (e1 e2 : Z) :
  bounded prec32 emax32 m1 e1 = true ->
  bounded prec32 emax32 m2 e2 = true ->
  e1 < e2 ->
  Zpos m1 * 2 ^ (e1 + 149) < Zpos m2 * 2 ^ (e2 + 149).
Proof.
  intros H1 H2 Hlt.
  apply bounded_inv in H1 as (He1 & Hm1 & _).
  apply bounded_inv in H2 as (He2 & _ & [-> | Hm2]); [lia |].
  assert (Hp : 0 < 2 ^ (e1 + 149)) by (apply Z.pow_pos_nonneg; lia).
  replace (e2 + 149) with ((e2 - e1 - 1) + 1 + (e1 + 149)) by lia.
  rewrite (Z.pow_add_r 2 (e2 - e1 - 1 + 1) (e1 + 149)) by lia.
  rewrite (Z.pow_add_r 2 (e2 - e1 - 1) 1) by lia.
  assert (Hq : 1 <= 2 ^ (e2 - e1 - 1)) by (apply (Z.pow_le_mono_r 2 0); lia).
  change (2 ^ 24) with 16777216 in Hm1. change (2 ^ 23) with 8388608 in Hm2.
  change (2 ^ 1) with 2.
  set (P := 2 ^ (e1 + 149)) in *. set (K := 2 ^ (e2 - e1 - 1)) in *.
  assert (Hmk : 8388608 <= Zpos m2 * K) by nia.
  replace (Zpos m2 * (K * 2 * P)) with (Zpos m2 * K * (2 * P)) by ring.
  apply Z.lt_le_trans with (16777216 * P); [nia |].
  replace (16777216 * P) with (8388608 * (2 * P)) by ring.
  apply Z.mul_le_mono_nonneg_r; lia.
Qed.

Lemma pow2_pos (k : Z) : 0 <= k -> 0 < 2 ^ k.
Proof. intros; apply Z.pow_pos_nonneg; lia. Qed.

(** On well-formed finite floats the IEEE comparison is the comparison of
    the values. *)
Lemma SFcompare_ulps (x y : float32) :
  is_float32 x = true -> is_float32 y = true ->
  is_finite x = true -> is_finite y = true ->
  SFcompare x y = Some (ulps x ?= ulps y)%Z.
Proof.
  destruct x as [sx | sx | | sx mx ex]; destruct y as [sy | sy | | sy my ey];
    cbn [is_finite is_float32 valid_binary]; intros Hx Hy Fx Fy; try discriminate.
  - reflexivity.
  - apply bounded_inv in Hy as (He & _ & _).
    pose proof (pow2_pos (ey + 149) ltac:(lia)).
    destruct sy; cbn [SFcompare ulps cond_Zopp]; f_equal; symmetry;
      [apply Z.compare_gt_iff | apply Z.compare_lt_iff]; nia.
  - apply bounded_inv in Hx as (He & _ & _).
    pose proof (pow2_pos (ex + 149) ltac:(lia)).
    destruct sx; cbn [SFcompare ulps cond_Zopp]; f_equal; symmetry;
      [apply Z.compare_lt_iff | apply Z.compare_gt_iff]; nia.
  - pose proof (bounded_inv _ _ Hx) as (Hex & _ & _).
    pose proof (bounded_inv _ _ Hy) as (Hey & _ & _).
    pose proof (pow2_pos (ex + 149) ltac:(lia)) as Px.
    pose proof (pow2_pos (ey + 149) ltac:(lia)) as Py.
    destruct sx, sy; cbn [SFcompare ulps cond_Zopp]; f_equal; symmetry.
    + destruct (Z.compare_spec ex ey) as [-> | Hlt | Hgt].
      * rewrite Pos.compare_cont_spec; cbn [Pos.switch_Eq].
        rewrite Pos2Z.inj_compare.
        destruct (Z.compare_spec (Zpos mx) (Zpos my)) as [E | L | G]; cbn [CompOpp].
        -- rewrite E. apply Z.compare_refl.
        -- apply Z.compare_gt_iff. nia.
        -- apply Z.compare_lt_iff. nia.
      * pose proof (ulps_exp_lt _ _ _ _ Hx Hy Hlt). apply Z.compare_gt_iff. lia.
      * pose proof (ulps_exp_lt _ _ _ _ Hy Hx Hgt). apply Z.compare_lt_iff. lia.
    + apply Z.compare_lt_iff. nia.
    + apply Z.compare_gt_iff. nia.
    + destruct (Z.compare_spec ex ey) as [-> | Hlt | Hgt].
      * rewrite Pos.compare_cont_spec; cbn [Pos.switch_Eq].
        rewrite Pos2Z.inj_compare.
        destruct (Z.compare_spec (Zpos mx) (Zpos my)) as [E | L | G].
        -- rewrite E. apply Z.compare_refl.
        -- apply Z.compare_lt_iff. nia.
        -- apply Z.compare_gt_iff. nia.
      * pose proof (ulps_exp_lt _ _ _ _ Hx Hy Hlt). apply Z.compare_lt_iff. lia.
      * pose proof (ulps_exp_lt _ _ _ _ Hy Hx Hgt). apply Z.compare_gt_iff. lia.
Qed.

Lemma F2Q_finite (x : float32) (q : Q) : F2Q x = Some q -> is_finite x = true.
Proof. destruct x; cbn; congruence. Qed.

(** Comparing an integer bound with the value of a float is comparing it
    with the float counted in units of [2^-149]. *)
Lemma Qle_bool_ulps (x : float32) (q : Q) (n : Z) :
  is_float32 x = true -> F2Q x = Some q ->
  Qle_bool (inject_Z n) q = (n * 2 ^ 149 <=? ulps x).
Proof.
  intros Hx Hq. apply Bool.eq_iff_eq_true. rewrite Z.leb_le.
  destruct x as [s | s | | s m e]; cbn [F2Q] in Hq; try discriminate.
  - injection Hq as <-. unfold Qle_bool; cbn [Qnum Qden inject_Z ulps].
    rewrite Z.leb_le. lia.
  - cbn [is_float32 valid_binary] in Hx. apply bounded_inv in Hx as (He & _ & _).
    cbn [ulps]. set (M := cond_Zopp s (Zpos m)) in *.
    destruct e as [| p | p].
    + injection Hq as <-. unfold Qle_bool; cbn [Qnum Qden inject_Z].
      rewrite Z.leb_le. change (2 ^ 0) with 1. change (0 + 149) with 149.
      pose proof (pow2_pos 149 ltac:(lia)). nia.
    + injection Hq as <-. unfold Qle_bool; cbn [Qnum Qden inject_Z].
      rewrite Z.leb_le, Z.pow_add_r by lia.
      pose proof (pow2_pos 149 ltac:(lia)).
      rewrite Z.mul_1_r, Z.mul_1_r, Z.mul_assoc.
      apply Z.mul_le_mono_pos_r. lia.
    + injection Hq as <-. unfold Qle_bool; cbn [Qnum Qden inject_Z].
      rewrite Z.leb_le, Pos2Z.inj_pow, Z.mul_1_r.
      assert (E : 2 ^ 149 = 2 ^ Zpos p * 2 ^ (Zneg p + 149)).
      { rewrite <- Z.pow_add_r by lia. f_equal. lia. }
      rewrite E, Z.mul_assoc.
      pose proof (pow2_pos (Zneg p + 149) ltac:(lia)).
      apply Z.mul_le_mono_pos_r. lia.
Qed.

Lemma bw_in_interval (x : float32) (q : Q) (a b : Z) :
  is_float32 x = true -> F2Q x = Some q ->
  exact_const a = true -> exact_const b = true ->
  bw x (f32_const a) (f32_const b) = in_interval q a b.
Proof.
  intros Hx Hq Ha Hb.
  unfold exact_const in Ha, Hb.
  apply andb_true_iff in Ha as [Ha Ea]. apply andb_true_iff in Ha as [Va Fa].
  apply andb_true_iff in Hb as [Hb Eb]. apply andb_true_iff in Hb as [Vb Fb].
  apply Z.eqb_eq in Ea, Eb.
  pose proof (F2Q_finite _ _ Hq) as Fx.
  unfold bw, in_interval, f32_ge, f32_lt.
  rewrite (SFcompare_ulps x (f32_const a)), (SFcompare_ulps x (f32_const b)) by assumption.
  rewrite (Qle_bool_ulps x q a), (Qle_bool_ulps x q b) by assumption.
  rewrite Ea, Eb. f_equal.
  - destruct (Z.compare_spec (ulps x) (a * 2 ^ 149)); symmetry;
      [apply Z.leb_le | apply Z.leb_gt | apply Z.leb_le]; lia.
  - destruct (Z.compare_spec (ulps x) (b * 2 ^ 149)); symmetry; cbn [negb];
      [apply negb_false_iff, Z.leb_le | apply negb_true_iff, Z.leb_gt
      | apply negb_false_iff, Z.leb_le]; lia.
Qed.

(** The classifier agrees with the table on every well-formed float. *)
Lemma getTemperature_classify_spec (t : float32) :
  is_float32 t = true -> getTemperature t = classify_spec t.
Proof.
  intros Ht. unfold classify_spec. destruct (F2Q t) as [q |] eqn:Hq.
  - unfold getTemperature, temperature_table. cbn [find fst snd].
    rewrite !(bw_in_interval t q) by (assumption || reflexivity).
    repeat match goal with
           | |- context [in_interval q ?a ?b] => destruct (in_interval q a b); [reflexivity |]
           end.
    reflexivity.
  - destruct t as [s | s | | s m e]; cbn in Hq; try discriminate.
    + destruct s; reflexivity.
    + reflexivity.
    + destruct e; discriminate.
Qed.

(** Membership of an interval, over the rationals. *)
Lemma in_interval_iff (q : Q) (a b : Z) :
  in_interval q a b = true <-> (inject_Z a <= q /\ q < inject_Z b)%Q.
Proof.
  unfold in_interval. rewrite andb_true_iff, negb_true_iff, Qle_bool_iff.
  rewrite <- not_true_iff_false, Qle_bool_iff.
  split; intros [H1 H2]; split; try assumption.
  - apply Qnot_le_lt, H2.
  - apply Qlt_not_le, H2.
Qed.

(** No row of the table holds [q] exactly when [q] is below -4 or at least 24. *)
Lemma classify_spec_HOT (t : float32) (q : Q) :
  F2Q t = Some q ->
  classify_spec t = "HOT" <-> (q < inject_Z (-4) \/ inject_Z 24 <= q)%Q.
Proof.
  intros Hq. unfold classify_spec, temperature_table. rewrite Hq. cbn [find fst snd].
  repeat match goal with
         | |- context [in_interval q ?a ?b] =>
             let H := fresh "H" in
             destruct (in_interval q a b) eqn:H;
             [ apply in_interval_iff in H; cbn [snd];
               split; [discriminate | unfold inject_Z in *; lra]
             | apply not_true_iff_false in H; rewrite in_interval_iff in H ]
         end.
  cbn. split; [intros _ | reflexivity].
  unfold inject_Z in *.
  destruct (Qlt_le_dec q (-4 # 1)) as [L | G]; [now left | right].
  lra.
Qed.

(** The literals of the boundary checks are the binary32 numbers nearest to
    their decimals. *)
Lemma literals_rounded :
  SFdiv prec32 emax32 (f32_const 23999) (f32_const 1000) = f32_23_999
  /\ SFdiv prec32 emax32 (f32_const (-4001)) (f32_const 1000) = f32_neg_4_001
  /\ SFdiv prec32 emax32 (f32_const 185) (f32_const 10) = f32_18_5.
Proof. repeat split; vm_compute; reflexivity. Qed.

(** ** The classifier *)

(** C1: on every 32-bit float the classifier returns the label of the first
    interval [a, b) of the table that holds the temperature and "HOT" when
    none does; -4 is "freezing", 0 is "very cold", 23.999 is "getting hot",
    24 and -100 are "HOT". *)
Theorem getTemperature_intervals :
  (forall t : float32, is_float32 t = true -> getTemperature t = classify_spec t)
  /\ (forall (t : float32) (q : Q), is_float32 t = true -> F2Q t = Some q ->
      getTemperature t = "HOT" <-> (q < inject_Z (-4) \/ inject_Z 24 <= q)%Q)
  /\ getTemperature (f32_const (-4)) = "freezing"
  /\ getTemperature (f32_const 0) = "very cold"
  /\ getTemperature f32_23_999 = "getting hot"
  /\ getTemperature (f32_const 24) = "HOT"
  /\ getTemperature (f32_const (-100)) = "HOT".
Proof.
  split; [exact getTemperature_classify_spec |].
  split.
  - intros t q Ht Hq. rewrite (getTemperature_classify_spec t Ht).
    apply classify_spec_HOT, Hq.
  - repeat split; vm_compute; reflexivity.
Qed.

Lemma getTemperature_intervals_witness :
  is_float32 f32_neg_4_001 = true
  /\ getTemperature f32_neg_4_001 = classify_spec f32_neg_4_001.
Proof.
  split; [reflexivity |].
  apply (proj1 getTemperature_intervals f32_neg_4_001). reflexivity.
Defined.

Lemma getTemperature_in_labels (t : float32) : In (getTemperature t) labels.
Proof.
  unfold getTemperature, labels.
  repeat match goal with
         | |- context [bw t ?a ?b] => destruct (bw t a b); [cbn; tauto |]
         end.
  cbn; tauto.
Qed.

Lemma labels_NoDup : NoDup labels.
Proof.
  unfold labels.
  repeat (apply NoDup_cons_2; [cbn; rewrite ?elem_of_cons, elem_of_nil; intros H;
                               repeat (destruct H as [H | H]; [discriminate |]); exact H |]).
  apply NoDup_nil_2.
Qed.

Lemma labels_attained :
  Forall (fun s => exists t, is_float32 t = true /\ getTemperature t = s) labels.
Proof.
  unfold labels.
  repeat apply Forall_cons_2; [ .. | apply Forall_nil_2 ].
  - exists (f32_const (-4)); split; reflexivity.
  - exists (f32_const 0); split; reflexivity.
  - exists (f32_const 4); split; reflexivity.
  - exists (f32_const 8); split; reflexivity.
  - exists (f32_const 12); split; reflexivity.
  - exists (f32_const 16); split; reflexivity.
  - exists (f32_const 20); split; reflexivity.
  - exists (f32_const 24); split; reflexivity.
Qed.

Lemma range_is_labels (s : string) :
  In s labels <-> exists t, is_float32 t = true /\ getTemperature t = s.
Proof.
  split.
  - intros Hs. pose proof labels_attained as Hall.
    rewrite Forall_forall in Hall. apply Hall, list_elem_of_In, Hs.
  - intros (t & _ & <-). apply getTemperature_in_labels.
Qed.

(** C2, as the code has it: the classifier is a total function, every result
    is one of the labels of the table, and its range has exactly eight
    strings. *)
Theorem getTemperature_range :
  (forall t : float32, exists! s, getTemperature t = s /\ In s labels)
  /\ length labels = 8%nat
  /\ range_has 8.
Proof.
  split; [| split; [reflexivity |]].
  - intros t. exists (getTemperature t). split.
    + split; [reflexivity | apply getTemperature_in_labels].
    + intros s [Hs _]. exact Hs.
  - exists labels. split; [apply labels_NoDup |]. split; [reflexivity |].
    apply range_is_labels.
Qed.

(** C2, as stated, fails: the range of the classifier does not have nine
    strings. *)
Lemma getTemperature_range_not_nine : ~ range_has 9.
Proof.
  intros (l & Hnd & Hlen & Hl).
  assert (Hincl : incl l labels).
  { intros s Hs. apply range_is_labels, Hl, Hs. }
  apply NoDup_ListNoDup in Hnd.
  pose proof (List.NoDup_incl_length Hnd Hincl) as Hle.
  rewrite Hlen in Hle. cbn in Hle. lia.
Qed.

(** C9: every interval test is false on NaN, so NaN gets the default label. *)
Theorem getTemperature_NaN :
  (forall a b : float32, bw S754_nan a b = false)
  /\ getTemperature S754_nan = "HOT".
Proof. split; [intros a b |]; reflexivity. Qed.

(** ** The error reply *)

Section ServiceProperties.
Variable rt : Runtime.
Variable KEY : string.

Lemma e_ok (msg hError : string) (w : World) :
  Marshal_httpError rt (httpError.mk "error" msg) = Ok hError ->
  e rt msg w
  = (Ret tt, mkWorld (write_bytes hError (writer w)) (logged w ++ [msg]) (open_bodies w)).
Proof. intros H. unfold e. rewrite H. reflexivity. Qed.

Lemma e_panic (msg : string) (err : error) (w : World) :
  Marshal_httpError rt (httpError.mk "error" msg) = Err err ->
  e rt msg w = (Panic err, w).
Proof. intros H. unfold e. rewrite H. reflexivity. Qed.

(** With Go's encoder, [e] on a fresh writer replies 200 with the error
    object. *)
Lemma e_reply (quote : string -> string) (msg : string) (w : World) :
  go_json quote rt -> writer w = fresh_writer ->
  e rt msg w
  = (Ret tt,
     mkWorld (mkWriter true StatusOK (encode_httpError quote (httpError.mk "error" msg)))
       (logged w ++ [msg]) (open_bodies w)).
Proof.
  intros [Hm _] Hw. rewrite (e_ok msg _ w (Hm _)), Hw. reflexivity.
Qed.

(** ** The upstream client *)

Ltac run_getWeather :=
  unfold getWeather, bind, http_Get, ReadAll, defer, Body_Close, Println, ret;
  cbn [Body StatusCode fst snd writer logged open_bodies].

Lemma getWeather_network_failure (longitude latitude : float32) (key : string)
    (cause : error) (w : World) :
  Get rt (weatherURL rt longitude latitude key) = Err cause ->
  getWeather rt longitude latitude key w
  = (Ret (owmSuccessMessage.zero, Some "internal server error"),
     mkWorld (writer w) (logged w ++ ["get weather: " ++ cause]) (open_bodies w)).
Proof. intros H. run_getWeather. rewrite H. reflexivity. Qed.

Lemma getWeather_read_failure (longitude latitude : float32) (key : string)
    (code : Z) (cause : error) (w : World) :
  Get rt (weatherURL rt longitude latitude key) = Ok (mkResponse code (ReadErr cause)) ->
  getWeather rt longitude latitude key w
  = (Ret (owmSuccessMessage.zero, Some "internal server error"),
     mkWorld (writer w) (logged w ++ ["read request body: " ++ cause])
       (S (open_bodies w))).
Proof. intros H. run_getWeather. rewrite H. reflexivity. Qed.

Lemma getWeather_upstream_error (longitude latitude : float32) (key : string)
    (code : Z) (body : string) (oError : owmErrorMessage.t) (w : World) :
  Get rt (weatherURL rt longitude latitude key) = Ok (mkResponse code (ReadOk body)) ->
  code <> StatusOK ->
  Unmarshal_owmErrorMessage rt body = Ok oError ->
  getWeather rt longitude latitude key w
  = (Ret (owmSuccessMessage.zero, Some (owmErrorMessage.Message oError)),
     mkWorld (writer w)
       (logged w ++ ["non-200 response: " ++ owmErrorMessage.Code oError ++ " "
                     ++ owmErrorMessage.Message oError])
       (open_bodies w)).
Proof.
  intros H Hc Hu. run_getWeather. rewrite H. cbn.
  apply Z.eqb_neq in Hc. rewrite Hc, Hu. reflexivity.
Qed.

Lemma getWeather_bad_error_body (longitude latitude : float32) (key : string)
    (code : Z) (body : string) (cause : error) (w : World) :
  Get rt (weatherURL rt longitude latitude key) = Ok (mkResponse code (ReadOk body)) ->
  code <> StatusOK ->
  Unmarshal_owmErrorMessage rt body = Err cause ->
  getWeather rt longitude latitude key w
  = (Ret (owmSuccessMessage.zero, Some "internal server error"),
     mkWorld (writer w) (logged w ++ ["unmarshall error request body: " ++ cause])
       (open_bodies w)).
Proof.
  intros H Hc Hu. run_getWeather. rewrite H. cbn.
  apply Z.eqb_neq in Hc. rewrite Hc, Hu. reflexivity.
Qed.

Lemma getWeather_bad_body (longitude latitude : float32) (key : string)
    (body : string) (cause : error) (w : World) :
  Get rt (weatherURL rt longitude latitude key) = Ok (mkResponse StatusOK (ReadOk body)) ->
  Unmarshal_owmSuccessMessage rt body = Err cause ->
  getWeather rt longitude latitude key w
  = (Ret (owmSuccessMessage.zero, Some "internal server error"),
     mkWorld (writer w) (logged w ++ ["unmarshall request body: " ++ cause])
       (open_bodies w)).
Proof. intros H Hu. run_getWeather. rewrite H. cbn. rewrite Hu. reflexivity. Qed.

Lemma getWeather_success (longitude latitude : float32) (key : string)
    (body : string) (data : owmSuccessMessage.t) (w : World) :
  Get rt (weatherURL rt longitude latitude key) = Ok (mkResponse StatusOK (ReadOk body)) ->
  Unmarshal_owmSuccessMessage rt body = Ok data ->
  getWeather rt longitude latitude key w
  = (Ret (data, None), mkWorld (writer w) (logged w) (open_bodies w)).
Proof. intros H Hu. run_getWeather. rewrite H. cbn. rewrite Hu. reflexivity. Qed.

(** [getWeather] never panics and never touches the reply. *)
Lemma getWeather_returns (longitude latitude : float32) (key : string) (w : World) :
  exists got w',
    getWeather rt longitude latitude key w = (Ret got, w')
    /\ writer w' = writer w.
Proof.
  run_getWeather.
  destruct (Get rt (weatherURL rt longitude latitude key)) as [[code [body | cause]] | cause];
    cbn; [| eauto | eauto].
  destruct (negb (code =? StatusOK)).
  - destruct (Unmarshal_owmErrorMessage rt body); cbn; eauto.
  - destruct (Unmarshal_owmSuccessMessage rt body); cbn; eauto.
Qed.
(** ** The handler *)

Lemma handler_missing_lat (r : Request) :
  Query r !! "lat" = None ->
  handler rt KEY r = e rt "missing query parameter: lat".
Proof. intros H. unfold handler. rewrite H. reflexivity. Qed.

Lemma handler_missing_lon (r : Request) (lat : list string) :
  Query r !! "lat" = Some lat -> Query r !! "lon" = None ->
  handler rt KEY r = e rt "missing query parameter: lon".
Proof. intros H1 H2. unfold handler. rewrite H1, H2. reflexivity. Qed.

Lemma handler_invalid_lat (r : Request) (lat0 : string) (lats lon : list string)
    (err : error) :
  Query r !! "lat" = Some (lat0 :: lats) -> Query r !! "lon" = Some lon ->
  ParseFloat rt lat0 32 = Err err ->
  handler rt KEY r = e rt "invalid value: lat".
Proof.
  intros H1 H2 H3. unfold handler. rewrite H1, H2.
  unfold bind, index0, ret. rewrite H3. reflexivity.
Qed.

Lemma handler_invalid_lon (r : Request) (lat0 lon0 : string) (lats lons : list string)
    (latitude : float64) (err : error) :
  Query r !! "lat" = Some (lat0 :: lats) -> Query r !! "lon" = Some (lon0 :: lons) ->
  ParseFloat rt lat0 32 = Ok latitude -> ParseFloat rt lon0 32 = Err err ->
  handler rt KEY r = e rt "invalid value: lon".
Proof.
  intros H1 H2 H3 H4. unfold handler. rewrite H1, H2.
  unfold bind, index0, ret. rewrite H3, H4. reflexivity.
Qed.

Lemma handler_validated (r : Request) (lat0 lon0 : string) (lats lons : list string)
    (latitude longitude : float64) :
  Query r !! "lat" = Some (lat0 :: lats) -> Query r !! "lon" = Some (lon0 :: lons) ->
  ParseFloat rt lat0 32 = Ok latitude -> ParseFloat rt lon0 32 = Ok longitude ->
  handler rt KEY r = handler_tail rt KEY latitude longitude.
Proof.
  intros H1 H2 H3 H4. unfold handler. rewrite H1, H2.
  unfold bind, index0, ret. rewrite H3, H4. reflexivity.
Qed.

Lemma handler_tail_upstream_failure (latitude longitude : float64)
    (data : owmSuccessMessage.t) (msg : error) (w w1 : World) :
  getWeather rt (float32_of_float64 longitude) (float32_of_float64 latitude) KEY w
  = (Ret (data, Some msg), w1) ->
  handler_tail rt KEY latitude longitude w = e rt msg w1.
Proof. intros H. unfold handler_tail, bind. rewrite H. reflexivity. Qed.

Lemma handler_tail_empty (latitude longitude : float64)
    (data : owmSuccessMessage.t) (w w1 : World) :
  getWeather rt (float32_of_float64 longitude) (float32_of_float64 latitude) KEY w
  = (Ret (data, None), w1) ->
  owmSuccessMessage.Weather data = [] ->
  handler_tail rt KEY latitude longitude w
  = (Panic "runtime error: index out of range [0] with length 0", w1).
Proof.
  intros H Hw. unfold handler_tail, bind. rewrite H. cbn [fst snd].
  rewrite Hw. reflexivity.
Qed.

Lemma handler_tail_marshalled (latitude longitude : float64)
    (data : owmSuccessMessage.t) (first : weatherEntry.t) (rest : list weatherEntry.t)
    (w w1 : World) :
  getWeather rt (float32_of_float64 longitude) (float32_of_float64 latitude) KEY w
  = (Ret (data, None), w1) ->
  owmSuccessMessage.Weather data = first :: rest ->
  handler_tail rt KEY latitude longitude w
  = match Marshal_response rt (response_of first data) with
    | Ok respData => Write respData w1
    | Err err => e rt err w1
    end.
Proof.
  intros H Hw. unfold handler_tail, bind. rewrite H. cbn [fst snd].
  rewrite Hw. unfold index0, ret, response_of.
  destruct (Marshal_response rt _); reflexivity.
Qed.
End ServiceProperties.

(** A key with no value makes the handler panic on [lat[0]]; the maps that
    [URL.Query()] builds give every key at least one value. *)
Lemma handler_no_first_value (rt : Runtime) (KEY : string) (r : Request)
    (lon : list string) (w : World) :
  Query r !! "lat" = Some [] -> Query r !! "lon" = Some lon ->
  handler rt KEY r w = (Panic "runtime error: index out of range [0] with length 0", w).
Proof. intros H1 H2. unfold handler. rewrite H1, H2. reflexivity. Qed.

(** The failures of [request_fails] are all there are: a request whose keys
    all have a value either fails in one of these ways or obtains a payload. *)
Lemma request_fails_or_payload (rt : Runtime) (KEY : string) (r : Request) (w : World) :
  (forall k vs, Query r !! k = Some vs -> vs <> []) ->
  (exists msg, request_fails rt KEY r w msg)
  \/ (exists lat0 lats lon0 lons latitude longitude data w1,
        Query r !! "lat" = Some (lat0 :: lats) /\ Query r !! "lon" = Some (lon0 :: lons)
        /\ ParseFloat rt lat0 32 = Ok latitude /\ ParseFloat rt lon0 32 = Ok longitude
        /\ getWeather rt (float32_of_float64 longitude) (float32_of_float64 latitude) KEY w
           = (Ret (data, None), w1)).
Proof.
  intros Hne.
  destruct (Query r !! "lat") as [[| lat0 lats] |] eqn:H1;
    [exfalso; exact (Hne _ _ H1 eq_refl) | | left; eexists; apply missing_lat, H1].
  destruct (Query r !! "lon") as [[| lon0 lons] |] eqn:H2;
    [exfalso; exact (Hne _ _ H2 eq_refl) | | left; eexists; eapply missing_lon; eassumption].
  destruct (ParseFloat rt lat0 32) as [latitude | err] eqn:H3;
    [| left; eexists; eapply invalid_lat; eassumption].
  destruct (ParseFloat rt lon0 32) as [longitude | err] eqn:H4;
    [| left; eexists; eapply invalid_lon; eassumption].
  destruct (getWeather_returns rt (float32_of_float64 longitude)
              (float32_of_float64 latitude) KEY w) as ([data [msg |]] & w1 & Hg & _).
  - left. exists msg. eapply upstream_failure; eassumption.
  - right. exists lat0, lats, lon0, lons, latitude, longitude, data, w1. auto.
Qed.

(** ** The claims about validation *)

(** C3: a missing "lat" is reported before a missing "lon", a missing key
    before an unparseable value, "lat" before "lon"; each failure is the call
    of [e] with the message of the specification, and two parsed values go on
    to the upstream call as they are, whatever they are. *)
Theorem handler_validation (rt : Runtime) (KEY : string) (r : Request) :
  (Query r !! "lat" = None ->
   handler rt KEY r = e rt "missing query parameter: lat")
  /\ (forall lat,
        Query r !! "lat" = Some lat -> Query r !! "lon" = None ->
        handler rt KEY r = e rt "missing query parameter: lon")
  /\ (forall lat0 lats lon err,
        Query r !! "lat" = Some (lat0 :: lats) -> Query r !! "lon" = Some lon ->
        ParseFloat rt lat0 32 = Err err ->
        handler rt KEY r = e rt "invalid value: lat")
  /\ (forall lat0 lats lon0 lons latitude err,
        Query r !! "lat" = Some (lat0 :: lats) ->
        Query r !! "lon" = Some (lon0 :: lons) ->
        ParseFloat rt lat0 32 = Ok latitude -> ParseFloat rt lon0 32 = Err err ->
        handler rt KEY r = e rt "invalid value: lon")
  /\ (forall lat0 lats lon0 lons latitude longitude,
        Query r !! "lat" = Some (lat0 :: lats) ->
        Query r !! "lon" = Some (lon0 :: lons) ->
        ParseFloat rt lat0 32 = Ok latitude -> ParseFloat rt lon0 32 = Ok longitude ->
        handler rt KEY r = handler_tail rt KEY latitude longitude).
Proof.
  split; [apply handler_missing_lat |].
  split; [apply handler_missing_lon |].
  split; [apply handler_invalid_lat |].
  split; intros.
  - eapply handler_invalid_lon; eassumption.
  - eapply handler_validated; eassumption.
Qed.

Lemma handler_validation_witness :
  handler clear_runtime "key" (request_of [("lat", ["abc"]); ("lon", ["5"])])
  = e clear_runtime "invalid value: lat"
  /\ handler clear_runtime "key" good_request
     = handler_tail clear_runtime "key" f64_51_5 f64_5.
Proof.
  split.
  - apply (proj1 (proj2 (proj2
      (handler_validation clear_runtime "key"
         (request_of [("lat", ["abc"]); ("lon", ["5"])]))))
      "abc" [] ["5"] "strconv.ParseFloat: parsing abc: invalid syntax");
      reflexivity.
  - apply (proj2 (proj2 (proj2 (proj2
      (handler_validation clear_runtime "key" good_request))))
      "51.5" [] "5" []); reflexivity.
Defined.

(** C10: with an unparseable "lat" and no "lon" the handler reports the
    missing "lon"; "invalid value: lat" is not what it logs. *)
Theorem presence_before_parsing (rt : Runtime) (KEY : string) (r : Request)
    (lat0 : string) (lats : list string) (err : error) :
  Query r !! "lat" = Some (lat0 :: lats) ->
  ParseFloat rt lat0 32 = Err err ->
  Query r !! "lon" = None ->
  handler rt KEY r = e rt "missing query parameter: lon"
  /\ forall w, logged (snd (handler rt KEY r w)) <> (logged w ++ ["invalid value: lat"])%list.
Proof.
  intros Hlat _ Hlon.
  pose proof (handler_missing_lon rt KEY r _ Hlat Hlon) as Hh.
  split; [exact Hh |].
  intros w. rewrite Hh. unfold e.
  destruct (Marshal_httpError rt _) as [hError | err']; cbn.
  - intros Heq. apply app_inv_head in Heq. discriminate.
  - intros Heq. apply (f_equal (@length string)) in Heq.
    rewrite length_app in Heq. cbn in Heq. lia.
Qed.

Lemma presence_before_parsing_witness :
  handler clear_runtime "key" (request_of [("lat", ["abc"])])
  = e clear_runtime "missing query parameter: lon"
  /\ forall w,
       logged (snd (handler clear_runtime "key" (request_of [("lat", ["abc"])]) w))
       <> (logged w ++ ["invalid value: lat"])%list.
Proof.
  apply (presence_before_parsing clear_runtime "key" (request_of [("lat", ["abc"])])
           "abc" [] "strconv.ParseFloat: parsing abc: invalid syntax");
    reflexivity.
Defined.

(** ** The claims about the upstream client *)

(** C4: a failed connection, a failed read, a non-200 answer whose body does
    not decode and a 200 answer whose body does not decode all return the
    error "internal server error", whatever the cause; a non-200 answer whose
    body decodes returns the provider's message, whatever the code. *)
Theorem getWeather_error_translation (rt : Runtime) (longitude latitude : float32)
    (key : string) (w : World) :
  let URL := weatherURL rt longitude latitude key in
  let returned := fst (getWeather rt longitude latitude key w) in
  (forall cause, Get rt URL = Err cause ->
     returned = Ret (owmSuccessMessage.zero, Some "internal server error"))
  /\ (forall code cause, Get rt URL = Ok (mkResponse code (ReadErr cause)) ->
        returned = Ret (owmSuccessMessage.zero, Some "internal server error"))
  /\ (forall code body oError,
        Get rt URL = Ok (mkResponse code (ReadOk body)) -> code <> StatusOK ->
        Unmarshal_owmErrorMessage rt body = Ok oError ->
        returned = Ret (owmSuccessMessage.zero, Some (owmErrorMessage.Message oError)))
  /\ (forall code body cause,
        Get rt URL = Ok (mkResponse code (ReadOk body)) -> code <> StatusOK ->
        Unmarshal_owmErrorMessage rt body = Err cause ->
        returned = Ret (owmSuccessMessage.zero, Some "internal server error"))
  /\ (forall body cause,
        Get rt URL = Ok (mkResponse StatusOK (ReadOk body)) ->
        Unmarshal_owmSuccessMessage rt body = Err cause ->
        returned = Ret (owmSuccessMessage.zero, Some "internal server error")).
Proof.
  cbv zeta. repeat split; intros.
  - erewrite getWeather_network_failure by eassumption. reflexivity.
  - erewrite getWeather_read_failure by eassumption. reflexivity.
  - erewrite getWeather_upstream_error by eassumption. reflexivity.
  - erewrite getWeather_bad_error_body by eassumption. reflexivity.
  - erewrite getWeather_bad_body by eassumption. reflexivity.
Qed.

Lemma getWeather_error_translation_witness :
  fst (getWeather not_found_runtime f32_18_5 f32_18_5 "key" fresh_world)
  = Ret (owmSuccessMessage.zero, Some "city not found").
Proof.
  apply (proj1 (proj2 (proj2
    (getWeather_error_translation not_found_runtime f32_18_5 f32_18_5 "key" fresh_world)))
    404 "body" city_not_found).
  - reflexivity.
  - discriminate.
  - reflexivity.
Defined.

Lemma getWeather_closes_read_body (rt : Runtime) (longitude latitude : float32)
    (key : string) (code : Z) (body : string) (w : World) :
  Get rt (weatherURL rt longitude latitude key) = Ok (mkResponse code (ReadOk body)) ->
  open_bodies (snd (getWeather rt longitude latitude key w)) = open_bodies w.
Proof.
  intros H.
  unfold getWeather, bind, http_Get, ReadAll, defer, Body_Close, Println, ret.
  rewrite H. cbn.
  destruct (negb (code =? StatusOK)).
  - destruct (Unmarshal_owmErrorMessage rt body); reflexivity.
  - destruct (Unmarshal_owmSuccessMessage rt body); reflexivity.
Qed.

(** C8, where the code departs from it: when reading the body fails,
    [getWeather] returns with the body it acquired still open. *)
Theorem getWeather_read_failure_leaks (rt : Runtime) (longitude latitude : float32)
    (key : string) (code : Z) (cause : error) (w : World) :
  Get rt (weatherURL rt longitude latitude key) = Ok (mkResponse code (ReadErr cause)) ->
  open_bodies (snd (getWeather rt longitude latitude key w)) = S (open_bodies w).
Proof.
  intros H. rewrite (getWeather_read_failure rt _ _ _ _ _ w H). reflexivity.
Qed.

Lemma getWeather_read_failure_leaks_witness :
  open_bodies (snd (getWeather broken_body_runtime f32_18_5 f32_18_5 "key" fresh_world))
  = 1%nat.
Proof.
  apply (getWeather_read_failure_leaks broken_body_runtime f32_18_5 f32_18_5 "key"
           StatusOK "unexpected EOF" fresh_world).
  reflexivity.
Defined.

(** ** The claims about the reply *)

(** C6: after a validated query and an upstream payload without weather
    entries, the handler panics on [data.Weather[0]]. *)
Theorem handler_empty_weather_panics (rt : Runtime) (KEY : string) (r : Request)
    (lat0 lon0 : string) (lats lons : list string) (latitude longitude : float64)
    (data : owmSuccessMessage.t) (w w1 : World) :
  Query r !! "lat" = Some (lat0 :: lats) -> Query r !! "lon" = Some (lon0 :: lons) ->
  ParseFloat rt lat0 32 = Ok latitude -> ParseFloat rt lon0 32 = Ok longitude ->
  getWeather rt (float32_of_float64 longitude) (float32_of_float64 latitude) KEY w
  = (Ret (data, None), w1) ->
  owmSuccessMessage.Weather data = [] ->
  handler rt KEY r w = (Panic "runtime error: index out of range [0] with length 0", w1).
Proof.
  intros H1 H2 H3 H4 Hg Hw.
  rewrite (handler_validated rt KEY r _ _ _ _ _ _ H1 H2 H3 H4).
  exact (handler_tail_empty rt KEY _ _ _ _ _ Hg Hw).
Qed.

Lemma handler_empty_weather_panics_witness :
  handler empty_runtime "key" good_request fresh_world
  = (Panic "runtime error: index out of range [0] with length 0", fresh_world).
Proof.
  apply (handler_empty_weather_panics empty_runtime "key" good_request
           "51.5" "5" [] [] f64_51_5 f64_5 owmSuccessMessage.zero);
    reflexivity.
Defined.

Lemma getWeather_keeps_writer (rt : Runtime) (longitude latitude : float32)
    (key : string) (got : owmSuccessMessage.t * option error) (w w1 : World) :
  getWeather rt longitude latitude key w = (Ret got, w1) -> writer w1 = writer w.
Proof.
  intros H.
  destruct (getWeather_returns rt longitude latitude key w) as (got' & w' & Hg & Hw).
  rewrite H in Hg. injection Hg as _ <-. exact Hw.
Qed.

Lemma failed_request_reply (quote : string -> string) (rt : Runtime) (KEY : string)
    (r : Request) (w : World) (msg : string) :
  go_json quote rt -> writer w = fresh_writer ->
  request_fails rt KEY r w msg ->
  exists w',
    handler rt KEY r w = (Ret tt, w')
    /\ writer w'
       = mkWriter true StatusOK (encode_httpError quote (httpError.mk "error" msg)).
Proof.
  intros Hj Hw Hf.
  destruct Hf as [H1 | lat H1 H2 | lat0 lats lon err H1 H2 H3
                 | lat0 lats lon0 lons latitude err H1 H2 H3 H4
                 | lat0 lats lon0 lons latitude longitude data msg w1 H1 H2 H3 H4 Hg].
  - rewrite (handler_missing_lat rt KEY r H1), (e_reply rt quote _ w Hj Hw).
    eexists; split; reflexivity.
  - rewrite (handler_missing_lon rt KEY r lat H1 H2), (e_reply rt quote _ w Hj Hw).
    eexists; split; reflexivity.
  - rewrite (handler_invalid_lat rt KEY r _ _ _ _ H1 H2 H3), (e_reply rt quote _ w Hj Hw).
    eexists; split; reflexivity.
  - rewrite (handler_invalid_lon rt KEY r _ _ _ _ _ _ H1 H2 H3 H4),
      (e_reply rt quote _ w Hj Hw).
    eexists; split; reflexivity.
  - rewrite (handler_validated rt KEY r _ _ _ _ _ _ H1 H2 H3 H4).
    rewrite (handler_tail_upstream_failure rt KEY _ _ _ _ _ _ Hg).
    pose proof (getWeather_keeps_writer _ _ _ _ _ _ _ Hg) as Hw1.
    rewrite (e_reply rt quote _ w1 Hj) by congruence.
    eexists; split; reflexivity.
Qed.

(** C5: with Go's encoder and a fresh writer, a request that succeeds is
    answered 200 with the object of the three members status (empty),
    condition (the first weather entry) and temperature_feel (the
    classifier's label); a request that fails in validation or upstream is
    answered 200 with the object of status "error" and the message. *)
Theorem reply_shapes (quote : string -> string) (rt : Runtime) (KEY : string)
    (r : Request) (w : World) :
  go_json quote rt -> writer w = fresh_writer ->
  (forall lat0 lats lon0 lons latitude longitude data first rest w1,
     Query r !! "lat" = Some (lat0 :: lats) -> Query r !! "lon" = Some (lon0 :: lons) ->
     ParseFloat rt lat0 32 = Ok latitude -> ParseFloat rt lon0 32 = Ok longitude ->
     getWeather rt (float32_of_float64 longitude) (float32_of_float64 latitude) KEY w
     = (Ret (data, None), w1) ->
     owmSuccessMessage.Weather data = first :: rest ->
     exists w',
       handler rt KEY r w = (Ret tt, w')
       /\ writer w'
          = mkWriter true StatusOK
              (encode_response quote
                 (response.mk EmptyString (weatherEntry.Main first)
                    (getTemperature
                       (mainBlock.Temperature (owmSuccessMessage.Main data))))))
  /\ (forall msg, request_fails rt KEY r w msg ->
      exists w',
        handler rt KEY r w = (Ret tt, w')
        /\ writer w'
           = mkWriter true StatusOK (encode_httpError quote (httpError.mk "error" msg))).
Proof.
  intros Hj Hw. split.
  - intros lat0 lats lon0 lons latitude longitude data first rest w1 H1 H2 H3 H4 Hg Hd.
    rewrite (handler_validated rt KEY r _ _ _ _ _ _ H1 H2 H3 H4).
    rewrite (handler_tail_marshalled rt KEY _ _ _ _ _ _ _ Hg Hd).
    destruct Hj as [_ Hm]. rewrite Hm.
    pose proof (getWeather_keeps_writer _ _ _ _ _ _ _ Hg) as Hw1.
    unfold Write, write_bytes. rewrite Hw1, Hw. cbn.
    eexists; split; reflexivity.
  - intros msg Hf. exact (failed_request_reply quote rt KEY r w msg Hj Hw Hf).
Qed.

Lemma clear_runtime_go_json : go_json plain_quote clear_runtime.
Proof. split; intros; reflexivity. Defined.

Lemma reply_shapes_witness :
  exists w',
    handler clear_runtime "key" good_request fresh_world = (Ret tt, w')
    /\ writer w'
       = mkWriter true StatusOK
           (encode_response plain_quote (response.mk EmptyString "Clear" "less mild")).
Proof.
  apply (proj1 (reply_shapes plain_quote clear_runtime "key" good_request fresh_world
                  clear_runtime_go_json eq_refl)
           "51.5" [] "5" [] f64_51_5 f64_5 clear_18_5 (weatherEntry.mk "Clear") []
           fresh_world);
    reflexivity.
Defined.

(** * Further properties of the code *)

(** ** The interval test *)

(** The value of a well-formed float, times [2^149], is its count of units. *)
Lemma F2Q_ulps (x : float32) (q : Q) :
  is_float32 x = true -> F2Q x = Some q ->
  Qnum q * 2 ^ 149 = ulps x * Zpos (Qden q).
Proof.
  intros Hx Hq.
  destruct x as [s | s | | s m e]; cbn [F2Q] in Hq; try discriminate.
  - injection Hq as <-. reflexivity.
  - cbn [is_float32 valid_binary] in Hx. apply bounded_inv in Hx as (He & _ & _).
    cbn [ulps]. set (M := cond_Zopp s (Zpos m)) in *.
    destruct e as [| p | p]; injection Hq as <-; cbn [Qnum Qden inject_Z].
    + change (0 + 149) with 149. change (2 ^ 0) with 1. ring.
    + rewrite Z.pow_add_r by lia. ring.
    + rewrite Pos2Z.inj_pow.
      assert (E : 2 ^ 149 = 2 ^ (Zneg p + 149) * 2 ^ Zpos p).
      { rewrite <- Z.pow_add_r by lia. f_equal. lia. }
      rewrite E. ring.
Qed.

Lemma Qle_bool_values (x y : float32) (qx qy : Q) :
  is_float32 x = true -> is_float32 y = true ->
  F2Q x = Some qx -> F2Q y = Some qy ->
  Qle_bool qx qy = (ulps x <=? ulps y).
Proof.
  intros Vx Vy Hx Hy.
  pose proof (F2Q_ulps x qx Vx Hx) as Ex. pose proof (F2Q_ulps y qy Vy Hy) as Ey.
  apply Bool.eq_iff_eq_true. unfold Qle_bool. rewrite !Z.leb_le.
  pose proof (pow2_pos 149 ltac:(lia)) as HK. set (K := 2 ^ 149) in *.
  destruct qx as [nx dx], qy as [ny dy]; cbn [Qnum Qden] in *.
  rewrite (Z.mul_le_mono_pos_r (nx * Zpos dy) (ny * Zpos dx) K HK).
  replace (nx * Zpos dy * K) with (ulps x * (Zpos dx * Zpos dy))
    by (transitivity (nx * K * Zpos dy); [rewrite Ex |]; ring).
  replace (ny * Zpos dx * K) with (ulps y * (Zpos dx * Zpos dy))
    by (transitivity (ny * K * Zpos dx); [rewrite Ey |]; ring).
  symmetry. apply Z.mul_le_mono_pos_r. lia.
Qed.

(** X1: on finite floats, [bw x a b] holds exactly when the values satisfy
    [a <= x < b]. *)
Theorem bw_values (x a b : float32) (qx qa qb : Q) :
  is_float32 x = true -> is_float32 a = true -> is_float32 b = true ->
  F2Q x = Some qx -> F2Q a = Some qa -> F2Q b = Some qb ->
  bw x a b = true <-> (qa <= qx /\ qx < qb)%Q.
Proof.
  intros Vx Va Vb Hx Ha Hb.
  pose proof (F2Q_finite _ _ Hx) as Fx. pose proof (F2Q_finite _ _ Ha) as Fa.
  pose proof (F2Q_finite _ _ Hb) as Fb.
  unfold bw, f32_ge, f32_lt.
  rewrite (SFcompare_ulps x a), (SFcompare_ulps x b) by assumption.
  rewrite andb_true_iff.
  rewrite <- (Qle_bool_iff qa qx), (Qle_bool_values a x qa qx) by assumption.
  rewrite Qlt_alt, Z.leb_le.
  assert (Hc : (qx ?= qb)%Q = (ulps x ?= ulps b)).
  { destruct (Z.compare_spec (ulps x) (ulps b)) as [E | L | G].
    - apply Qeq_alt, Qle_antisym; apply Qle_bool_iff;
        [rewrite (Qle_bool_values x b qx qb) | rewrite (Qle_bool_values b x qb qx)];
        try assumption; apply Z.leb_le; lia.
    - apply Qlt_alt, Qnot_le_lt. rewrite <- Qle_bool_iff.
      rewrite (Qle_bool_values b x qb qx) by assumption.
      rewrite Z.leb_le. lia.
    - apply Qgt_alt, Qnot_le_lt. rewrite <- Qle_bool_iff.
      rewrite (Qle_bool_values x b qx qb) by assumption.
      rewrite Z.leb_le. lia. }
  rewrite Hc.
  destruct (Z.compare_spec (ulps x) (ulps a)); destruct (Z.compare_spec (ulps x) (ulps b));
    split; intros [H1 H2]; try discriminate; try lia; split; try reflexivity; lia.
Qed.

Lemma bw_values_witness :
  bw f32_18_5 (f32_const 16) (f32_const 20) = true
  <-> (8388608 # 524288 <= 9699328 # 524288 /\ 9699328 # 524288 < 10485760 # 524288)%Q.
Proof.
  apply (bw_values f32_18_5 (f32_const 16) (f32_const 20)); reflexivity.
Defined.

(** X2: on well-formed floats, infinities included, [bw x a b] can hold only
    when [a < b]: an interval whose bounds are equal, swapped or NaN holds
    nothing. *)
Theorem bw_bounds_ordered (x a b : float32) :
  is_float32 x = true -> is_float32 a = true -> is_float32 b = true ->
  bw x a b = true -> f32_lt a b = true.
Proof.
  intros Vx Va Vb H. unfold bw in H. apply andb_true_iff in H as [Hge Hlt].
  destruct (is_finite x && is_finite a && is_finite b) eqn:F.
  - apply andb_true_iff in F as [F Fb]. apply andb_true_iff in F as [Fx Fa].
    unfold f32_ge, f32_lt in *.
    rewrite (SFcompare_ulps x a) in Hge by assumption.
    rewrite (SFcompare_ulps x b) in Hlt by assumption.
    rewrite (SFcompare_ulps a b) by assumption.
    destruct (Z.compare_spec (ulps x) (ulps a)); try discriminate;
      destruct (Z.compare_spec (ulps x) (ulps b)); try discriminate;
      destruct (Z.compare_spec (ulps a) (ulps b)); try reflexivity; lia.
  - unfold f32_ge, f32_lt in *.
    destruct x as [sx | sx | | sx mx ex], a as [sa | sa | | sa ma ea],
        b as [sb | sb | | sb mb eb];
      cbn [is_finite andb] in F; try discriminate F;
      cbn [SFcompare] in *; try discriminate;
      repeat match goal with s : bool |- _ => destruct s end;
      try discriminate; reflexivity.
Qed.

Lemma bw_bounds_ordered_witness :
  f32_lt (S754_infinity true) (f32_const 0) = true.
Proof.
  apply (bw_bounds_ordered (f32_const (-100)) (S754_infinity true) (f32_const 0));
    reflexivity.
Defined.

(** ** The cases of the switch *)



(** X4: from -4 degrees up the label never moves back: of two finite
    temperatures the warmer one has a label at least as far in [labels]. *)
Theorem label_monotone (x y : float32) (qx qy : Q) :
  is_float32 x = true -> is_float32 y = true ->
  F2Q x = Some qx -> F2Q y = Some qy ->
  (inject_Z (-4) <= qx)%Q -> (qx <= qy)%Q ->
  (label_rank (getTemperature x) <= label_rank (getTemperature y))%nat.
Proof.
  intros Vx Vy Hx Hy Hlow Hle.
  rewrite (getTemperature_classify_spec x Vx), (getTemperature_classify_spec y Vy).
  unfold classify_spec, temperature_table. rewrite Hx, Hy. cbn [find fst snd].
  unfold inject_Z in Hlow.
  repeat match goal with
         | |- context [in_interval ?q ?a ?b] =>
             let H := fresh "H" in
             destruct (in_interval q a b) eqn:H;
             [ apply in_interval_iff in H; unfold inject_Z in H
             | apply not_true_iff_false in H; rewrite in_interval_iff in H;
               unfold inject_Z in H ]
         end;
    first [ vm_compute; lia | exfalso; lra ].
Qed.

Lemma label_monotone_witness :
  (label_rank (getTemperature (f32_const 5)) <= label_rank (getTemperature f32_18_5))%nat.
Proof.
  apply (label_monotone (f32_const 5) f32_18_5 (10485760 # 2097152) (9699328 # 524288));
    try reflexivity; vm_compute; discriminate.
Defined.

(** ** The upstream client, on every path *)

(** X5: [getWeather] always returns and leaves the reply alone; with an
    error it returns the zero payload and has logged exactly one line;
    without one it has logged nothing and the body is closed again. *)
Theorem getWeather_outcome (rt : Runtime) (longitude latitude : float32)
    (key : string) (w : World) :
  exists data err w',
    getWeather rt longitude latitude key w = (Ret (data, err), w')
    /\ writer w' = writer w
    /\ match err with
       | Some _ =>
           data = owmSuccessMessage.zero
           /\ exists line, logged w' = (logged w ++ [line])%list
       | None => logged w' = logged w /\ open_bodies w' = open_bodies w
       end.
Proof.
  unfold getWeather, bind, http_Get, ReadAll, defer, Body_Close, Println, ret.
  destruct (Get rt (weatherURL rt longitude latitude key))
    as [[code [body | cause]] | cause]; cbn.
  - destruct (negb (code =? StatusOK)).
    + destruct (Unmarshal_owmErrorMessage rt body); cbn;
        do 3 eexists; (split; [reflexivity |]); cbn; eauto.
    + destruct (Unmarshal_owmSuccessMessage rt body); cbn;
        do 3 eexists; (split; [reflexivity |]); cbn; eauto.
  - do 3 eexists. split; [reflexivity |]. cbn. eauto.
  - do 3 eexists. split; [reflexivity |]. cbn. eauto.
Qed.

(** X6: [getWeather] returns a payload without error exactly when the
    upstream answered 200, the body was read and it decoded; the payload is
    the decoded one. *)
Theorem getWeather_success_iff (rt : Runtime) (longitude latitude : float32)
    (key : string) (w : World) (data : owmSuccessMessage.t) :
  fst (getWeather rt longitude latitude key w) = Ret (data, None)
  <-> exists body,
        Get rt (weatherURL rt longitude latitude key)
        = Ok (mkResponse StatusOK (ReadOk body))
        /\ Unmarshal_owmSuccessMessage rt body = Ok data.
Proof.
  split.
  - unfold getWeather, bind, http_Get, ReadAll, defer, Body_Close, Println, ret.
    destruct (Get rt (weatherURL rt longitude latitude key))
      as [[code [body | cause]] | cause]; cbn; try discriminate.
    destruct (code =? StatusOK) eqn:Hc; cbn.
    + apply Z.eqb_eq in Hc. subst code.
      destruct (Unmarshal_owmSuccessMessage rt body) as [d | err] eqn:Hu; cbn;
        [| discriminate].
      intros H. injection H as ->. exists body. split; [reflexivity | exact Hu].
    + destruct (Unmarshal_owmErrorMessage rt body); cbn; discriminate.
  - intros (body & Hg & Hu).
    rewrite (getWeather_success rt _ _ _ body data w Hg Hu). reflexivity.
Qed.

(** X7: after [getWeather] the count of open bodies is what it was, except
    when reading the body failed: then, and only then, one more is open. *)
Theorem getWeather_open_bodies (rt : Runtime) (longitude latitude : float32)
    (key : string) (w : World) :
  open_bodies (snd (getWeather rt longitude latitude key w))
  = match Get rt (weatherURL rt longitude latitude key) with
    | Ok (mkResponse _ (ReadErr _)) => S (open_bodies w)
    | _ => open_bodies w
    end.
Proof.
  unfold getWeather, bind, http_Get, ReadAll, defer, Body_Close, Println, ret.
  destruct (Get rt (weatherURL rt longitude latitude key))
    as [[code [body | cause]] | cause]; cbn; try reflexivity.
  destruct (negb (code =? StatusOK)).
  - destruct (Unmarshal_owmErrorMessage rt body); reflexivity.
  - destruct (Unmarshal_owmSuccessMessage rt body); reflexivity.
Qed.

(** ** The handler, on every path *)

(** [e] either returns, having appended what [json.Marshal] gave for the
    error reply, or panics with the encoder's error, having done nothing. *)
Lemma e_outcome (rt : Runtime) (msg : string) (w : World) :
  (exists p w',
     e rt msg w = (Ret tt, w')
     /\ Marshal_httpError rt (httpError.mk "error" msg) = Ok p
     /\ writer w' = write_bytes p (writer w))
  \/ (exists v, e rt msg w = (Panic v, w)
                /\ Marshal_httpError rt (httpError.mk "error" msg) = Err v).
Proof.
  unfold e. destruct (Marshal_httpError rt _) as [hError | err].
  - left. exists hError. eexists. repeat split; reflexivity.
  - right. exists err. split; reflexivity.
Qed.

(** X8: of each of the keys "lat" and "lon" the handler reads only whether it
    is there and its first value: further values and other keys change
    nothing. *)
Theorem handler_reads_first_values (rt : Runtime) (KEY : string) (r r' : Request) :
  first_value r "lat" = first_value r' "lat" ->
  first_value r "lon" = first_value r' "lon" ->
  handler rt KEY r = handler rt KEY r'.
Proof.
  unfold first_value, handler. intros Hlat Hlon.
  destruct (Query r !! "lat") as [lat |], (Query r' !! "lat") as [lat' |];
    try discriminate; [| reflexivity].
  destruct (Query r !! "lon") as [lon |], (Query r' !! "lon") as [lon' |];
    try discriminate; [| reflexivity].
  destruct lat as [| lat0 lats], lat' as [| lat0' lats']; try discriminate;
    [reflexivity |].
  injection Hlat as ->.
  unfold bind, index0, ret.
  destruct (ParseFloat rt lat0' 32); [| reflexivity].
  destruct lon as [| lon0 lons], lon' as [| lon0' lons']; try discriminate;
    [reflexivity |].
  injection Hlon as ->. reflexivity.
Qed.

Lemma handler_reads_first_values_witness :
  handler clear_runtime "key"
    (request_of [("lat", ["51.5"; "abc"]); ("lon", ["5"; "6"]); ("units", ["imperial"])])
  = handler clear_runtime "key" good_request.
Proof.
  apply (handler_reads_first_values clear_runtime "key"
           (request_of [("lat", ["51.5"; "abc"]); ("lon", ["5"; "6"]);
                        ("units", ["imperial"])])
           good_request); reflexivity.
Defined.

(** X9: when the handler returns, the bytes it added to the reply are what
    [json.Marshal] gave for an error reply or for the success reply of a
    payload; when it panics, the reply is what it was. *)
Theorem handler_appends_marshalled (rt : Runtime) (KEY : string) (r : Request)
    (w : World) :
  match handler rt KEY r w with
  | (Ret _, w') =>
      exists p, marshalled_reply rt p /\ writer w' = write_bytes p (writer w)
  | (Panic _, w') => writer w' = writer w
  end.
Proof.
  assert (He : forall msg w0, writer w0 = writer w ->
             match e rt msg w0 with
             | (Ret _, w') =>
                 exists p, marshalled_reply rt p /\ writer w' = write_bytes p (writer w)
             | (Panic _, w') => writer w' = writer w
             end).
  { intros msg w0 Hw0.
    destruct (e_outcome rt msg w0) as [(p & w' & -> & Hm & Hp) | (v & -> & _)].
    - exists p. split; [left; exists msg; exact Hm |]. rewrite Hp, Hw0. reflexivity.
    - exact Hw0. }
  unfold handler.
  destruct (Query r !! "lat") as [[| lat0 lats] |]; [| | apply He; reflexivity].
  { destruct (Query r !! "lon"); [reflexivity | apply He; reflexivity]. }
  destruct (Query r !! "lon") as [lon |]; [| apply He; reflexivity].
  unfold bind at 1. unfold index0 at 1. unfold ret at 1.
  destruct (ParseFloat rt lat0 32) as [latitude | err]; [| apply He; reflexivity].
  destruct lon as [| lon0 lons]; [reflexivity |].
  unfold bind at 1. unfold index0 at 1. unfold ret at 1.
  destruct (ParseFloat rt lon0 32) as [longitude | err]; [| apply He; reflexivity].
  unfold handler_tail, bind.
  destruct (getWeather_returns rt (float32_of_float64 longitude)
              (float32_of_float64 latitude) KEY w) as ([data err] & w1 & -> & Hw1).
  cbn [fst snd].
  destruct err as [msg |]; [apply He; exact Hw1 |].
  destruct (owmSuccessMessage.Weather data) as [| first rest]; [exact Hw1 |].
  unfold index0, ret.
  destruct (Marshal_response rt _) as [respData | err] eqn:Hm; [| apply He; exact Hw1].
  exists respData. split.
  - right. exists first, data. exact Hm.
  - unfold Write. cbn. rewrite Hw1. reflexivity.
Qed.

(** X10: the handler panics only on an index out of range or when the error
    reply cannot be encoded. *)
Theorem handler_panics (rt : Runtime) (KEY : string) (r : Request) (w w' : World)
    (v : string) :
  handler rt KEY r w = (Panic v, w') ->
  v = "runtime error: index out of range [0] with length 0"
  \/ exists msg, Marshal_httpError rt (httpError.mk "error" msg) = Err v.
Proof.
  assert (He : forall msg w0, e rt msg w0 = (Panic v, w') ->
             exists msg, Marshal_httpError rt (httpError.mk "error" msg) = Err v).
  { intros msg w0 H.
    destruct (e_outcome rt msg w0) as [(p & w1 & Hr & _ & _) | (v' & Hp & Hm)].
    - rewrite Hr in H. discriminate.
    - rewrite Hp in H. injection H as -> _. exists msg. exact Hm. }
  unfold handler.
  destruct (Query r !! "lat") as [[| lat0 lats] |]; [| | intros H; right; eapply He, H].
  { destruct (Query r !! "lon"); [| intros H; right; eapply He, H].
    intros H. injection H as <- _. left. reflexivity. }
  destruct (Query r !! "lon") as [lon |]; [| intros H; right; eapply He, H].
  unfold bind at 1. unfold index0 at 1. unfold ret at 1.
  destruct (ParseFloat rt lat0 32) as [latitude | err];
    [| intros H; right; eapply He, H].
  destruct lon as [| lon0 lons]; [intros H; injection H as <- _; left; reflexivity |].
  unfold bind at 1. unfold index0 at 1. unfold ret at 1.
  destruct (ParseFloat rt lon0 32) as [longitude | err];
    [| intros H; right; eapply He, H].
  unfold handler_tail, bind.
  destruct (getWeather_returns rt (float32_of_float64 longitude)
              (float32_of_float64 latitude) KEY w) as ([data err] & w1 & -> & Hw1).
  cbn [fst snd].
  destruct err as [msg |]; [intros H; right; eapply He, H |].
  destruct (owmSuccessMessage.Weather data) as [| first rest];
    [intros H; injection H as <- _; left; reflexivity |].
  unfold index0, ret.
  destruct (Marshal_response rt _) as [respData | err];
    [discriminate | intros H; right; eapply He, H].
Qed.

Lemma handler_panics_witness :
  "runtime error: index out of range [0] with length 0"
  = "runtime error: index out of range [0] with length 0"
  \/ exists msg,
       Marshal_httpError empty_runtime (httpError.mk "error" msg)
       = Err "runtime error: index out of range [0] with length 0".
Proof.
  apply (handler_panics empty_runtime "key" good_request fresh_world fresh_world).
  reflexivity.
Defined.

(** X11: a request that does not pass validation is answered without the
    upstream, the decoders and the key: two runtimes with the same parser
    and the same encoder of error replies answer it alike, whatever the key. *)
Theorem invalid_request_needs_no_upstream (rt rt' : Runtime) (KEY KEY' : string)
    (r : Request) :
  (forall s bitSize, ParseFloat rt' s bitSize = ParseFloat rt s bitSize) ->
  (forall h, Marshal_httpError rt' h = Marshal_httpError rt h) ->
  (forall lat0 lats lon0 lons latitude longitude,
     Query r !! "lat" = Some (lat0 :: lats) -> Query r !! "lon" = Some (lon0 :: lons) ->
     ParseFloat rt lat0 32 = Ok latitude -> ParseFloat rt lon0 32 = Ok longitude ->
     False) ->
  handler rt' KEY' r = handler rt KEY r.
Proof.
  intros HP HM Hinvalid.
  assert (He : forall msg, e rt' msg = e rt msg).
  { intros msg. unfold e. rewrite HM. reflexivity. }
  unfold handler.
  destruct (Query r !! "lat") as [[| lat0 lats] |] eqn:H1; [| | apply He].
  { destruct (Query r !! "lon"); [reflexivity | apply He]. }
  destruct (Query r !! "lon") as [lon |] eqn:H2; [| apply He].
  unfold bind, index0, ret. rewrite HP.
  destruct (ParseFloat rt lat0 32) as [latitude | err] eqn:H3; [| apply He].
  destruct lon as [| lon0 lons]; [reflexivity |].
  rewrite HP.
  destruct (ParseFloat rt lon0 32) as [longitude | err] eqn:H4; [| apply He].
  exfalso. exact (Hinvalid _ _ _ _ _ _ eq_refl eq_refl H3 H4).
Qed.

Lemma invalid_request_needs_no_upstream_witness :
  handler broken_body_runtime "other key" (request_of [("lat", ["abc"]); ("lon", ["5"])])
  = handler clear_runtime "key" (request_of [("lat", ["abc"]); ("lon", ["5"])]).
Proof.
  apply (invalid_request_needs_no_upstream clear_runtime broken_body_runtime
           "key" "other key" (request_of [("lat", ["abc"]); ("lon", ["5"])])).
  - reflexivity.
  - reflexivity.
  - intros lat0 lats lon0 lons latitude longitude H1 _ H3 _.
    vm_compute in H1. injection H1 as <- _. vm_compute in H3. discriminate.
Defined.

(** X12: from the upstream's answer to the reply.  For a validated request,
    Go's encoder and a fresh writer, the URL asked carries the parsed "lat" as
    lat and the parsed "lon" as lon; a failed connection, a failed read and an
    undecodable body are all answered 200 with "internal server error", a
    decodable non-200 body with the provider's message word for word, and a
    decoded payload with a weather entry by the success object. *)
Theorem upstream_answer_to_reply (quote : string -> string) (rt : Runtime)
    (KEY : string) (r : Request) (w : World) (lat0 lon0 : string)
    (lats lons : list string) (latitude longitude : float64) :
  go_json quote rt -> writer w = fresh_writer ->
  Query r !! "lat" = Some (lat0 :: lats) -> Query r !! "lon" = Some (lon0 :: lons) ->
  ParseFloat rt lat0 32 = Ok latitude -> ParseFloat rt lon0 32 = Ok longitude ->
  let URL :=
    "https://api.openweathermap.org/data/2.5/weather?units=metric&lat="
    ++ format_f rt (float32_of_float64 latitude)
    ++ "&lon=" ++ format_f rt (float32_of_float64 longitude) ++ "&appid=" ++ KEY in
  let reply := writer (snd (handler rt KEY r w)) in
  let error_reply msg :=
    mkWriter true StatusOK (encode_httpError quote (httpError.mk "error" msg)) in
  (forall cause, Get rt URL = Err cause -> reply = error_reply "internal server error")
  /\ (forall code cause, Get rt URL = Ok (mkResponse code (ReadErr cause)) ->
        reply = error_reply "internal server error")
  /\ (forall code body oError,
        Get rt URL = Ok (mkResponse code (ReadOk body)) -> code <> StatusOK ->
        Unmarshal_owmErrorMessage rt body = Ok oError ->
        reply = error_reply (owmErrorMessage.Message oError))
  /\ (forall code body cause,
        Get rt URL = Ok (mkResponse code (ReadOk body)) -> code <> StatusOK ->
        Unmarshal_owmErrorMessage rt body = Err cause ->
        reply = error_reply "internal server error")
  /\ (forall body cause,
        Get rt URL = Ok (mkResponse StatusOK (ReadOk body)) ->
        Unmarshal_owmSuccessMessage rt body = Err cause ->
        reply = error_reply "internal server error")
  /\ (forall body data first rest,
        Get rt URL = Ok (mkResponse StatusOK (ReadOk body)) ->
        Unmarshal_owmSuccessMessage rt body = Ok data ->
        owmSuccessMessage.Weather data = first :: rest ->
        reply = mkWriter true StatusOK (encode_response quote (response_of first data))).
Proof.
  intros Hj Hw H1 H2 H3 H4. cbv zeta.
  change ("https://api.openweathermap.org/data/2.5/weather?units=metric&lat="
          ++ format_f rt (float32_of_float64 latitude)
          ++ "&lon=" ++ format_f rt (float32_of_float64 longitude) ++ "&appid=" ++ KEY)
    with (weatherURL rt (float32_of_float64 longitude) (float32_of_float64 latitude) KEY).
  assert (Hfail : forall data msg w1,
             getWeather rt (float32_of_float64 longitude) (float32_of_float64 latitude)
               KEY w = (Ret (data, Some msg), w1) ->
             writer (snd (handler rt KEY r w))
             = mkWriter true StatusOK (encode_httpError quote (httpError.mk "error" msg))).
  { intros data msg w1 Hg.
    destruct (failed_request_reply quote rt KEY r w msg Hj Hw
                (upstream_failure rt KEY r w _ _ _ _ _ _ _ _ _ H1 H2 H3 H4 Hg))
      as (w' & -> & Hw'). exact Hw'. }
  repeat split.
  - intros cause Hg. eapply Hfail, getWeather_network_failure, Hg.
  - intros code cause Hg. eapply Hfail, getWeather_read_failure, Hg.
  - intros code body oError Hg Hc Hu.
    eapply Hfail, getWeather_upstream_error; eassumption.
  - intros code body cause Hg Hc Hu.
    eapply Hfail, getWeather_bad_error_body; eassumption.
  - intros body cause Hg Hu. eapply Hfail, getWeather_bad_body; eassumption.
  - intros body data first rest Hg Hu Hd.
    pose proof (getWeather_success rt _ _ _ body data w Hg Hu) as Hs.
    rewrite (handler_validated rt KEY r _ _ _ _ _ _ H1 H2 H3 H4).
    rewrite (handler_tail_marshalled rt KEY _ _ _ _ _ _ _ Hs Hd).
    destruct Hj as [_ Hm]. rewrite Hm. unfold Write, write_bytes. cbn.
    rewrite Hw. reflexivity.
Qed.

Lemma upstream_answer_to_reply_witness :
  writer (snd (handler not_found_runtime "key" good_request fresh_world))
  = mkWriter true StatusOK
      (encode_httpError plain_quote (httpError.mk "error" "city not found")).
Proof.
  apply (proj1 (proj2 (proj2
    (upstream_answer_to_reply plain_quote not_found_runtime "key" good_request
       fresh_world "51.5" "5" [] [] f64_51_5 f64_5
       (conj (fun _ => eq_refl) (fun _ => eq_refl)) eq_refl eq_refl eq_refl eq_refl
       eq_refl)))
    404 "body" city_not_found).
  - reflexivity.
  - discriminate.
  - reflexivity.
Defined.

Lemma getWeather_logged (rt : Runtime) (longitude latitude : float32) (key : string)
    (got : owmSuccessMessage.t * option error) (w w1 : World) :
  getWeather rt longitude latitude key w = (Ret got, w1) ->
  match snd got with
  | Some _ => exists line, logged w1 = (logged w ++ [line])%list
  | None => logged w1 = logged w
  end.
Proof.
  unfold getWeather, bind, http_Get, ReadAll, defer, Body_Close, Println, ret.
  destruct (Get rt (weatherURL rt longitude latitude key))
    as [[code [body | cause]] | cause]; cbn.
  - destruct (negb (code =? StatusOK)).
    + destruct (Unmarshal_owmErrorMessage rt body); cbn;
        intros H; injection H as <- <-; cbn; eauto.
    + destruct (Unmarshal_owmSuccessMessage rt body); cbn;
        intros H; injection H as <- <-; cbn; eauto.
  - intros H; injection H as <- <-; cbn; eauto.
  - intros H; injection H as <- <-; cbn; eauto.
Qed.

(** X13: what the handler logs, with Go's encoder.  A request that fails has
    its client message as the last line logged, after at most one line of
    diagnosis; a request that succeeds logs nothing. *)
Theorem handler_log (quote : string -> string) (rt : Runtime) (KEY : string)
    (r : Request) (w : World) :
  go_json quote rt ->
  (forall msg, request_fails rt KEY r w msg ->
     exists diagnosis,
       logged (snd (handler rt KEY r w)) = (logged w ++ diagnosis ++ [msg])%list
       /\ (length diagnosis <= 1)%nat)
  /\ (forall lat0 lats lon0 lons latitude longitude data first rest w1,
        Query r !! "lat" = Some (lat0 :: lats) ->
        Query r !! "lon" = Some (lon0 :: lons) ->
        ParseFloat rt lat0 32 = Ok latitude -> ParseFloat rt lon0 32 = Ok longitude ->
        getWeather rt (float32_of_float64 longitude) (float32_of_float64 latitude) KEY w
        = (Ret (data, None), w1) ->
        owmSuccessMessage.Weather data = first :: rest ->
        logged (snd (handler rt KEY r w)) = logged w).
Proof.
  intros Hj. pose proof (proj1 Hj) as Hm. split.
  - intros msg Hf.
    destruct Hf as [H1 | lat H1 H2 | lat0 lats lon err H1 H2 H3
                   | lat0 lats lon0 lons latitude err H1 H2 H3 H4
                   | lat0 lats lon0 lons latitude longitude data msg w1 H1 H2 H3 H4 Hg].
    + rewrite (handler_missing_lat rt KEY r H1), (e_ok rt _ _ w (Hm _)).
      exists []. split; [reflexivity | cbn; lia].
    + rewrite (handler_missing_lon rt KEY r lat H1 H2), (e_ok rt _ _ w (Hm _)).
      exists []. split; [reflexivity | cbn; lia].
    + rewrite (handler_invalid_lat rt KEY r _ _ _ _ H1 H2 H3), (e_ok rt _ _ w (Hm _)).
      exists []. split; [reflexivity | cbn; lia].
    + rewrite (handler_invalid_lon rt KEY r _ _ _ _ _ _ H1 H2 H3 H4),
        (e_ok rt _ _ w (Hm _)).
      exists []. split; [reflexivity | cbn; lia].
    + rewrite (handler_validated rt KEY r _ _ _ _ _ _ H1 H2 H3 H4).
      rewrite (handler_tail_upstream_failure rt KEY _ _ _ _ _ _ Hg).
      rewrite (e_ok rt _ _ w1 (Hm _)). cbn [snd logged].
      destruct (getWeather_logged _ _ _ _ _ _ _ Hg) as [line Hl].
      exists [line]. rewrite Hl, <- app_assoc. split; [reflexivity | cbn; lia].
  - intros lat0 lats lon0 lons latitude longitude data first rest w1 H1 H2 H3 H4 Hg Hd.
    rewrite (handler_validated rt KEY r _ _ _ _ _ _ H1 H2 H3 H4).
    rewrite (handler_tail_marshalled rt KEY _ _ _ _ _ _ _ Hg Hd).
    rewrite (proj2 Hj). cbn.
    exact (getWeather_logged _ _ _ _ _ _ _ Hg).
Qed.

Lemma handler_log_witness :
  exists diagnosis,
    logged (snd (handler not_found_runtime "key" good_request fresh_world))
    = ([] ++ diagnosis ++ ["city not found"])%list
    /\ (length diagnosis <= 1)%nat.
Proof.
  apply (proj1 (handler_log plain_quote not_found_runtime "key" good_request fresh_world
                  (conj (fun _ => eq_refl) (fun _ => eq_refl)))
           "city not found").
  apply (upstream_failure not_found_runtime "key" good_request fresh_world
           "51.5" [] "5" [] f64_51_5 f64_5 owmSuccessMessage.zero "city not found"
           (mkWorld fresh_writer ["non-200 response: 404 city not found"] 0));
    reflexivity.
Defined.
